(** * atomic_agents.agents.base_agent: the turn-execution contract of BaseAgent

    A shallow embedding of [src/atomic_agents/agents/base_agent.py].

    Python objects that the agent shares by reference (the [AgentMemory]
    instances) live in a heap indexed by locations; the agent's own attributes
    are a record.  Methods are computations in a state-and-exception monad:
    an exception leaves the state as it was when it was raised.  Calls to the
    collaborators are recorded, in program order, in a trace. *)

From stdpp Require Import base option list gmap strings.

Local Open Scope string_scope.
Local Open Scope list_scope.

(** ** Values exchanged with the collaborators *)

(** A heap location of an [AgentMemory] object. *)
Abbreviation loc := positive (only parsing).

(** One entry of the conversation history: [{"role": ..., "content": ...}]. *)
Record Message := mkMessage { role : string; content : string }.

(** An instance of (a subclass of) [BaseAgentIO].  What the agent observes of
    such an object is its truth value ([if user_input:]) and its textual
    serialization.  [model_dump_json] is pydantic's serialization of the
    instance; pydantic's [BaseModel] defines neither [__bool__] nor [__len__],
    so instances of the schemas declared in this file are true, while a
    subclass is free to define either. *)
Record BaseAgentIO := mkIO { __bool__ : bool; model_dump_json : string }.

(** [BaseAgentIO.__str__]: [return self.model_dump_json()]. *)
Definition __str__ (self : BaseAgentIO) : string := model_dump_json self.

(** Python's truth value of an optional object: [None] is false. *)
Definition truth (o : option BaseAgentIO) : bool :=
  match o with
  | None => false
  | Some u => __bool__ u
  end.

(** The schema classes: the two declared in the source, and any other
    [BaseModel] subclass a configuration may name.  Class objects are true. *)
Inductive Schema :=
| BaseAgentInputSchema
| BaseAgentOutputSchema
| CustomSchema (name : string).

(** Exceptions: the [KeyError] this layer raises itself, and whatever a
    collaborator raises. *)
Inductive exn :=
| KeyError (arg : string)
| CollaboratorError (e : string).

(** The keyword arguments of [client.chat.completions.create]. *)
Record Request := mkRequest {
  req_model : string;
  req_messages : list Message;
  req_response_model : Schema
}.

(** Observable actions, in program order. *)
Inductive Event :=
| EvSetCurrentUserInput (u : BaseAgentIO)
| EvAddMessage (l : loc) (m : Message)
| EvCreate (r : Request).

Section Model.

(** [CS] is the state of whatever stands behind the completion client;
    [Provider] is the type of context-provider instances. *)
Context {CS Provider : Type}.

(** The [instructor] client: [create] may answer or raise, and may change the
    state behind the client. *)
Record Instructor := mkInstructor {
  chat_completions_create : CS → Request → CS * (exn + BaseAgentIO)
}.

(** [system_prompt_generator.system_prompt_info]: the agent reads and writes
    only its [context_providers] dictionary, a mapping from provider names to
    provider instances. *)
Record SystemPromptInfo := mkInfo {
  context_providers : gmap string Provider
}.

Record SystemPromptGenerator := mkGenerator {
  system_prompt_info : SystemPromptInfo
}.

(** [SystemPromptGenerator.generate_prompt] is not part of this file: the text
    it produces from the generator's current state is a parameter. *)
Variable generate_prompt : SystemPromptGenerator → string.

(** Modelled from the spec: [SystemPromptGenerator()], the fresh default
    generator, whose registry of context providers is empty. *)
Definition SystemPromptGenerator_new : SystemPromptGenerator :=
  mkGenerator (mkInfo ∅).

Record World := mkWorld {
  heap : gmap loc (list Message);
  client_state : CS;
  trace : list Event
}.

Definition set_heap (h : gmap loc (list Message)) (w : World) : World :=
  mkWorld h (client_state w) (trace w).

Definition log (e : Event) (w : World) : World :=
  mkWorld (heap w) (client_state w) (trace w ++ [e]).

(** ** AgentMemory *)

(** Modelled from the spec: [AgentMemory.get_history], the ordered sequence of
    the messages of the memory object at [l]. *)
Definition get_history (l : loc) (w : World) : list Message :=
  default [] (heap w !! l).

(** Modelled from the spec: [AgentMemory.add_message(role, content)] appends
    one message to the history of the object at [l]. *)
Definition add_message (l : loc) (r c : string) (w : World) : World :=
  let m := mkMessage r c in
  log (EvAddMessage l m) (set_heap (<[l := get_history l w ++ [m]]> (heap w)) w).

(** Modelled from the spec: [AgentMemory()], a fresh empty memory. *)
Definition AgentMemory_new (w : World) : loc * World :=
  let l := fresh (dom (heap w)) in
  (l, set_heap (<[l := []]> (heap w)) w).

(** Modelled from the spec: [AgentMemory.copy()], an independent structural
    snapshot: a new object with the same history. *)
Definition copy (l : loc) (w : World) : loc * World :=
  let l' := fresh (dom (heap w)) in
  (l', set_heap (<[l' := get_history l w]> (heap w)) w).

(** ** BaseAgentConfig *)

Record BaseAgentConfig := mkConfig {
  config_client : Instructor;
  config_model : string;
  config_memory : option loc;
  config_system_prompt_generator : option SystemPromptGenerator;
  config_input_schema : option Schema;
  config_output_schema : option Schema
}.

(** The pydantic constructor: [client] is required, [model] defaults to
    ["gpt-3.5-turbo"], every other field to [None]. *)
Definition BaseAgentConfig_new (client : Instructor) (model : option string)
    (memory : option loc) (generator : option SystemPromptGenerator)
    (input output : option Schema) : BaseAgentConfig :=
  mkConfig client (default "gpt-3.5-turbo" model) memory generator input output.

(** ** BaseAgent *)

Record BaseAgent := mkAgent {
  input_schema : Schema;
  output_schema : Schema;
  client : Instructor;
  model : string;
  memory : loc;
  system_prompt_generator : SystemPromptGenerator;
  initial_memory : loc;
  current_user_input : option BaseAgentIO
}.

Definition set_memory (l : loc) (a : BaseAgent) : BaseAgent :=
  mkAgent (input_schema a) (output_schema a) (client a) (model a) l
    (system_prompt_generator a) (initial_memory a) (current_user_input a).

Definition set_current_user_input (u : BaseAgentIO) (a : BaseAgent) : BaseAgent :=
  mkAgent (input_schema a) (output_schema a) (client a) (model a) (memory a)
    (system_prompt_generator a) (initial_memory a) (Some u).

Definition set_context_providers (d : gmap string Provider) (a : BaseAgent) : BaseAgent :=
  mkAgent (input_schema a) (output_schema a) (client a) (model a) (memory a)
    (mkGenerator (mkInfo d)) (initial_memory a) (current_user_input a).

(** The registry the three provider operations work on:
    [self.system_prompt_generator.system_prompt_info.context_providers]. *)
Definition providers (a : BaseAgent) : gmap string Provider :=
  context_providers (system_prompt_info (system_prompt_generator a)).

(** [BaseAgent.__init__].  [x or y] on a class, a memory or a generator object
    picks [y] exactly when [x] is [None]: none of these objects is false. *)
Definition __init__ (config : BaseAgentConfig) (w : World) : BaseAgent * World :=
  let '(mem, w1) :=
    match config_memory config with
    | Some l => (l, w)
    | None => AgentMemory_new w
    end in
  let '(snapshot, w2) := copy mem w1 in
  (mkAgent
     (default BaseAgentInputSchema (config_input_schema config))
     (default BaseAgentOutputSchema (config_output_schema config))
     (config_client config)
     (config_model config)
     mem
     (default SystemPromptGenerator_new (config_system_prompt_generator config))
     snapshot
     None,
   w2).

(** *** The monad of methods *)

Record State := mkState { self : BaseAgent; world : World }.

Definition M (A : Type) : Type := State → (exn + A) * State.

Definition ret {A} (x : A) : M A := λ s, (inr x, s).

Definition raise {A} (e : exn) : M A := λ s, (inl e, s).

Definition bind {A B} (c : M A) (k : A → M B) : M B :=
  λ s, match c s with
       | (inr x, s') => k x s'
       | (inl e, s') => (inl e, s')
       end.

Definition get_self : M BaseAgent := λ s, (inr (self s), s).

Definition on_self (f : BaseAgent → BaseAgent) : M unit :=
  λ s, (inr (), mkState (f (self s)) (world s)).

Definition on_world (f : World → World) : M unit :=
  λ s, (inr (), mkState (self s) (f (world s))).

Definition in_world {A} (f : World → A * World) : M A :=
  λ s, let '(x, w) := f (world s) in (inr x, mkState (self s) w).

Definition read_world {A} (f : World → A) : M A :=
  λ s, (inr (f (world s)), s).

(** The call to the completion client: the request is logged, the state
    behind the client moves on, the answer is returned or raised. *)
Definition create (c : Instructor) (r : Request) : M BaseAgentIO :=
  λ s,
    let w := log (EvCreate r) (world s) in
    let '(cs, res) := chat_completions_create c (client_state w) r in
    (res, mkState (self s) (mkWorld (heap w) cs (trace w))).

#[local] Instance M_ret : MRet M := @ret.
#[local] Instance M_bind : MBind M := λ A B k c, bind c k.

(** *** Methods *)

(** [self.current_user_input = user_input]. *)
Definition assign_current_user_input (u : BaseAgentIO) : M unit :=
  λ s, (inr (), mkState (set_current_user_input u (self s))
                        (log (EvSetCurrentUserInput u) (world s))).

(** [BaseAgent.reset_memory]: [self.memory = self.initial_memory.copy()]. *)
Definition reset_memory : M unit :=
  a ← get_self;
  m ← in_world (copy (initial_memory a));
  on_self (set_memory m).

(** [BaseAgent.get_response].  The prompt is generated first, then the
    history is read; the list handed to the client is a new list. *)
Definition get_response (response_model : option Schema) : M BaseAgentIO :=
  a ← get_self;
  let response_model :=
    match response_model with
    | None => output_schema a
    | Some rm => rm
    end in
  let system := mkMessage "system" (generate_prompt (system_prompt_generator a)) in
  history ← read_world (get_history (memory a));
  create (client a) (mkRequest (model a) (system :: history) response_model).

(** [BaseAgent.run].  The guard is [if user_input:], Python's truth test. *)
Definition run (user_input : option BaseAgentIO) : M BaseAgentIO :=
  match user_input with
  | Some u =>
      if __bool__ u then
        assign_current_user_input u;;
        a ← get_self;
        on_world (add_message (memory a) "user" (__str__ u))
      else ret ()
  | None => ret ()
  end;;
  a ← get_self;
  response ← get_response (Some (output_schema a));
  a ← get_self;
  on_world (add_message (memory a) "assistant" (__str__ response));;
  ret response.

(** The error both lookup operations raise:
    [KeyError(f"Context provider '{provider_name}' not found.")]. *)
Definition not_found (provider_name : string) : exn :=
  KeyError ("Context provider '" +:+ provider_name +:+ "' not found.").

(** Python's [d[k]] and [del d[k]] on a dictionary. *)
Definition dict_getitem (d : gmap string Provider) (k : string) : M Provider :=
  match d !! k with
  | Some v => ret v
  | None => raise (KeyError k)
  end.

Definition dict_delitem (d : gmap string Provider) (k : string) : M unit :=
  match d !! k with
  | Some _ => on_self (set_context_providers (delete k d))
  | None => raise (KeyError k)
  end.

(** [BaseAgent.get_context_provider]. *)
Definition get_context_provider (provider_name : string) : M Provider :=
  a ← get_self;
  if bool_decide (provider_name ∉ dom (providers a))
  then raise (not_found provider_name)
  else dict_getitem (providers a) provider_name.

(** [BaseAgent.register_context_provider]. *)
Definition register_context_provider (provider_name : string) (provider : Provider) : M unit :=
  a ← get_self;
  on_self (set_context_providers (<[provider_name := provider]> (providers a))).

(** [BaseAgent.unregister_context_provider]. *)
Definition unregister_context_provider (provider_name : string) : M unit :=
  a ← get_self;
  if bool_decide (provider_name ∈ dom (providers a))
  then dict_delitem (providers a) provider_name
  else raise (not_found provider_name).

(** ** Callers *)

(** What a caller holding the agent can do after construction: call its
    public methods, append to its active memory directly
    ([agent.memory.add_message(...)]), or append to any other memory object it
    holds a reference to (such as the one it passed in the configuration). *)
Inductive Call :=
| CallRun (user_input : option BaseAgentIO)
| CallGetResponse (response_model : option Schema)
| CallResetMemory
| CallGetContextProvider (provider_name : string)
| CallRegister (provider_name : string) (provider : Provider)
| CallUnregister (provider_name : string)
| CallMemoryAdd (r c : string)
| CallHeapAdd (l : loc) (r c : string).

(** The state a call leaves behind, whether it returned or raised. *)
Definition exec_call (c : Call) (s : State) : State :=
  match c with
  | CallRun u => (run u s).2
  | CallGetResponse rm => (get_response rm s).2
  | CallResetMemory => (reset_memory s).2
  | CallGetContextProvider n => (get_context_provider n s).2
  | CallRegister n p => (register_context_provider n p s).2
  | CallUnregister n => (unregister_context_provider n s).2
  | CallMemoryAdd r c => mkState (self s) (add_message (memory (self s)) r c (world s))
  | CallHeapAdd l r c => mkState (self s) (add_message l r c (world s))
  end.

Definition exec_calls (cs : list Call) (s : State) : State :=
  foldl (λ s c, exec_call c s) s cs.

(** The completion requests among a list of events. *)
Definition requests (evs : list Event) : list Request :=
  omap (λ e, match e with EvCreate r => Some r | _ => None end) evs.

(** The messages appended to the memory object at [l] among a list of
    events. *)
Definition appended (l : loc) (evs : list Event) : list Message :=
  omap (λ e, match e with
             | EvAddMessage l' m => if decide (l' = l) then Some m else None
             | _ => None
             end) evs.

(** ** Vocabulary of the statements *)

(** The request [get_response] builds in state [s]. *)
Definition request_of (rm : option Schema) (s : State) : Request :=
  mkRequest (model (self s))
    (mkMessage "system" (generate_prompt (system_prompt_generator (self s)))
       :: get_history (memory (self s)) (world s))
    (match rm with None => output_schema (self s) | Some x => x end).

(** What the client answers to a request in state [s]. *)
Definition answer_to (req : Request) (s : State) : CS * (exn + BaseAgentIO) :=
  chat_completions_create (client (self s)) (client_state (world s)) req.

(** The state after one call to the client. *)
Definition after_create (req : Request) (s : State) : State :=
  mkState (self s)
    (mkWorld (heap (world s)) (answer_to req s).1 (trace (world s) ++ [EvCreate req])).

(** The state after the guarded first step of [run]: the input is recorded
    and appended when Python takes it for true, and nothing happens
    otherwise. *)
Definition after_input (user_input : option BaseAgentIO) (s : State) : State :=
  match user_input with
  | Some u =>
      if __bool__ u then
        mkState (set_current_user_input u (self s))
          (add_message (memory (self s)) "user" (__str__ u)
             (log (EvSetCurrentUserInput u) (world s)))
      else s
  | None => s
  end.

(** The state after the last step of [run]: the response is appended. *)
Definition after_response (r : BaseAgentIO) (s : State) : State :=
  mkState (self s) (add_message (memory (self s)) "assistant" (__str__ r) (world s)).

(** The events a state has seen since the trace was [n] long. *)
Definition events_since (n : nat) (s : State) : list Event :=
  drop n (trace (world s)).

(** The caller's reference in the configuration points to a live object. *)
Definition config_live (config : BaseAgentConfig) (w : World) : Prop :=
  match config_memory config with
  | Some l => is_Some (heap w !! l)
  | None => True
  end.

#[global] Instance config_live_dec config w : Decision (config_live config w).
Proof. unfold config_live. destruct (config_memory config); apply _. Defined.

(** The call does not append to the memory object at [l] behind the agent's
    back. *)
Definition call_avoids (l : loc) (c : Call) : Prop :=
  match c with
  | CallHeapAdd l' _ _ => l' ≠ l
  | _ => True
  end.

#[global] Instance call_avoids_dec l c : Decision (call_avoids l c).
Proof. destruct c; simpl; apply _. Defined.

(** ** Vocabulary of caller programs *)

(** The messages the guarded first step of [run] appends. *)
Definition input_messages (user_input : option BaseAgentIO) : list Message :=
  match user_input with
  | Some u => if __bool__ u then [mkMessage "user" (__str__ u)] else []
  | None => []
  end.

(** The two messages of a completed turn with input [u] and response [r]. *)
Definition turn (u r : BaseAgentIO) : list Message :=
  [mkMessage "user" (__str__ u); mkMessage "assistant" (__str__ r)].

(** The requests a call sends to the client from state [s]. *)
Definition call_requests (c : Call) (s : State) : list Request :=
  match c with
  | CallRun u => [request_of (Some (output_schema (self s))) (after_input u s)]
  | CallGetResponse rm => [request_of rm s]
  | _ => []
  end.

Definition is_reset (c : Call) : bool :=
  match c with CallResetMemory => true | _ => false end.

Definition calls_client (c : Call) : bool :=
  match c with CallRun _ | CallGetResponse _ => true | _ => false end.

Definition changes_registry (c : Call) : bool :=
  match c with CallRegister _ _ | CallUnregister _ => true | _ => false end.

Definition overrides_schema (c : Call) : bool :=
  match c with CallGetResponse (Some _) => true | _ => false end.

(** A client that answers every request. *)
Definition always_answers (c : Instructor) : Prop :=
  ∀ cs req, ∃ cs' r, chat_completions_create c cs req = (cs', inr r).

End Model.

Arguments Instructor : clear implicits.
Arguments SystemPromptInfo : clear implicits.
Arguments SystemPromptGenerator : clear implicits.
Arguments World : clear implicits.
Arguments BaseAgentConfig : clear implicits.
Arguments BaseAgent : clear implicits.
Arguments State : clear implicits.
Arguments M : clear implicits.
Arguments Call : clear implicits.

(** ** Concrete collaborators

    A stub world for closed examples: the state behind the client counts the
    calls made so far, providers are plain text, and the prompt lists the
    registered provider names. *)

Definition quoted (s : string) : string :=
  String (Ascii.ascii_of_nat 34) (s +:+ String (Ascii.ascii_of_nat 34) EmptyString).

(** pydantic's dump of a one-field envelope whose text needs no escaping. *)
Definition chat_message_json (text : string) : string :=
  "{" +:+ quoted "chat_message" +:+ ":" +:+ quoted text +:+ "}".

(** [BaseAgentInputSchema(chat_message="ping")] and
    [BaseAgentOutputSchema(chat_message="pong")]. *)
Definition ping : BaseAgentIO := mkIO true (chat_message_json "ping").
Definition pong : BaseAgentIO := mkIO true (chat_message_json "pong").

(** An instance of a custom input schema that wraps a list and defines
    [__len__] as the length of that list, built with an empty list:
    a provided input that Python's truth test takes for false. *)
Definition empty_batch : BaseAgentIO :=
  mkIO false ("{" +:+ quoted "items" +:+ ":[]}").

(** A client that always answers [pong]. *)
Definition pong_client : Instructor nat :=
  mkInstructor (λ n _, (S n, inr pong)).

(** A client that always fails. *)
Definition failing_client : Instructor nat :=
  mkInstructor (λ n _, (S n, inl (CollaboratorError "connection refused"))).

Definition stub_prompt (g : SystemPromptGenerator string) : string :=
  "You are a helpful assistant. Context: "
  +:+ String.concat ", " (map fst (map_to_list (context_providers (system_prompt_info g)))).

(** The world before anything was allocated. *)
Definition empty_world : World nat := mkWorld ∅ 0 [].

(** A world in which the caller already holds a memory object with one
    message. *)
Definition seeded_world : World nat :=
  mkWorld {[ 1%positive := [mkMessage "assistant" "Hello!"] ]} 0 [].

Definition pong_config : BaseAgentConfig nat string :=
  BaseAgentConfig_new pong_client None None None None None.

Definition seeded_config : BaseAgentConfig nat string :=
  BaseAgentConfig_new pong_client None (Some 1%positive) None None None.

Definition failing_config : BaseAgentConfig nat string :=
  BaseAgentConfig_new failing_client (Some "gpt-4") None None None
    (Some (CustomSchema "Verdict")).

(** The agent built from a configuration in a world. *)
Definition construct {CS Provider} (config : BaseAgentConfig CS Provider)
    (w : World CS) : State CS Provider :=
  let '(a, w') := __init__ config w in mkState a w'.

Definition pong_agent : State nat string := construct pong_config empty_world.
Definition seeded_agent : State nat string := construct seeded_config seeded_world.
Definition failing_agent : State nat string := construct failing_config empty_world.

(** A caller program for the seeded agent: a turn, an append through the
    reference the caller passed in the configuration, a direct append to
    the active memory, a reset, a turn without input, and an append through
    the caller's old reference. *)
Definition demo_calls : list (Call string) :=
  [CallRun (Some ping);
   CallHeapAdd 1 "user" "through the configuration";
   CallMemoryAdd "user" "direct";
   CallResetMemory;
   CallRun None;
   CallHeapAdd 1 "user" "stale reference"].

(** The seeded agent after registering a provider named [weather]. *)
Definition with_weather : State nat string :=
  (register_context_provider "weather" "sunny" seeded_agent).2.

(** A conversation without reset, registry operation or explicit schema: a
    turn, a direct append, a turn without input. *)
Definition chat_calls : list (Call string) :=
  [CallRun (Some ping); CallMemoryAdd "user" "direct"; CallRun None].

(** * Properties *)

(** Unfolds a method down to the state it computes. *)
Ltac unfold_method :=
  unfold run, get_response, reset_memory, get_context_provider,
    register_context_provider, unregister_context_provider,
    dict_getitem, dict_delitem, assign_current_user_input, create,
    mbind, M_bind, bind, mret, M_ret, ret, raise,
    get_self, on_self, on_world, in_world, read_world, copy; simpl.

Section Properties.

Context {CS Provider : Type}.
Variable generate_prompt : SystemPromptGenerator Provider → string.

Implicit Types (s : State CS Provider) (a : BaseAgent CS Provider) (w : World CS).
Implicit Types (u r : BaseAgentIO) (rm : option Schema) (n : string) (p : Provider).
Implicit Types (config : BaseAgentConfig CS Provider) (calls : list (Call Provider)).

Lemma get_response_unfold rm s :
  get_response generate_prompt rm s
  = ((answer_to (request_of generate_prompt rm s) s).2,
     after_create (request_of generate_prompt rm s) s).
Proof.
  unfold_method. unfold after_create, answer_to, request_of.
  destruct rm; simpl; by destruct (chat_completions_create _ _ _).
Qed.

(** C3: in every state, [get_response] calls the client exactly once, with
    the agent's model, with the message list made of one system message
    carrying the generator's current prompt followed by the whole history of
    the active memory, and with the resolved schema; it returns what the
    client answers and touches neither the agent nor any memory. *)
Theorem get_response_calls_client rm s :
  let a := self s in
  let messages :=
    mkMessage "system" (generate_prompt (system_prompt_generator a))
      :: get_history (memory a) (world s) in
  let schema := match rm with None => output_schema a | Some x => x end in
  let req := mkRequest (model a) messages schema in
  let out := chat_completions_create (client a) (client_state (world s)) req in
  get_response generate_prompt rm s
  = (out.2, mkState a (mkWorld (heap (world s)) out.1 (trace (world s) ++ [EvCreate req]))).
Proof. intros. apply get_response_unfold. Qed.

(** C4: when the client raises, [get_response] raises the same exception;
    the client was called once, and the agent's attributes, every memory
    object (the active memory and the snapshot among them) and the provider
    registry are as before. *)
Theorem get_response_failure_propagates rm s cs e :
  chat_completions_create (client (self s)) (client_state (world s))
    (request_of generate_prompt rm s) = (cs, inl e) →
  ∃ s',
    get_response generate_prompt rm s = (inl e, s')
    ∧ self s' = self s
    ∧ heap (world s') = heap (world s)
    ∧ get_history (memory (self s')) (world s') = get_history (memory (self s)) (world s)
    ∧ get_history (initial_memory (self s')) (world s')
      = get_history (initial_memory (self s)) (world s)
    ∧ providers (self s') = providers (self s)
    ∧ trace (world s') = trace (world s) ++ [EvCreate (request_of generate_prompt rm s)].
Proof.
  intros Hfail. exists (after_create (request_of generate_prompt rm s) s).
  rewrite get_response_unfold. unfold answer_to. rewrite Hfail. simpl.
  by repeat split.
Qed.

(** C6: an explicit [response_model] is the schema the client receives,
    whatever the agent's configured output schema is; without one the client
    receives the configured output schema. *)
Theorem get_response_schema_override rm s :
  ∃ req,
    trace (world (get_response generate_prompt rm s).2) = trace (world s) ++ [EvCreate req]
    ∧ req_response_model req
      = match rm with
        | Some schema => schema
        | None => output_schema (self s)
        end.
Proof.
  exists (request_of generate_prompt rm s). rewrite get_response_unfold. simpl. by destruct rm.
Qed.

(** *** Memory objects *)

Lemma get_history_add_message_eq l (r c : string) w :
  get_history l (add_message l r c w) = get_history l w ++ [mkMessage r c].
Proof. unfold get_history, add_message. simpl. by rewrite lookup_insert_eq. Qed.

Lemma get_history_add_message_ne l l' (r c : string) w :
  l ≠ l' → get_history l' (add_message l r c w) = get_history l' w.
Proof. intros. unfold get_history, add_message. simpl. by rewrite lookup_insert_ne. Qed.

(** A newly allocated object is none of the live ones. *)
Lemma fresh_ne (h : gmap loc (list Message)) l :
  is_Some (h !! l) → fresh (dom h) ≠ l.
Proof.
  intros Hl Heq. apply (is_fresh (dom h)). rewrite Heq. by apply elem_of_dom.
Qed.

Lemma get_history_log l e w : get_history l (log e w) = get_history l w.
Proof. done. Qed.

Lemma trace_add_message l (r c : string) w :
  trace (add_message l r c w) = trace w ++ [EvAddMessage l (mkMessage r c)].
Proof. done. Qed.

(** *** One turn *)

(** [run], step by step: the guarded input step, the client call, and the
    append of the response when there is one. *)
Lemma run_unfold user_input s :
  let s1 := after_input user_input s in
  let req := request_of generate_prompt (Some (output_schema (self s1))) s1 in
  run generate_prompt user_input s
  = match (answer_to req s1).2 with
    | inr r => (inr r, after_response r (after_create req s1))
    | inl e => (inl e, after_create req s1)
    end.
Proof.
  unfold_method. unfold after_response, after_create, answer_to, request_of, after_input.
  destruct user_input as [u|]; [destruct (__bool__ u)|]; simpl;
    by destruct (chat_completions_create _ _ _) as [cs [e|r]].
Qed.

(** A turn with an input Python takes for true: the input is recorded, then
    the user message is appended, then the client is called with a history
    that ends in that user message, then the assistant message is appended. *)
Lemma run_true_input u r cs s :
  let mem := memory (self s) in
  let user := mkMessage "user" (__str__ u) in
  let assistant := mkMessage "assistant" (__str__ r) in
  let req :=
    mkRequest (model (self s))
      (mkMessage "system" (generate_prompt (system_prompt_generator (self s)))
         :: get_history mem (world s) ++ [user])
      (output_schema (self s)) in
  __bool__ u = true →
  chat_completions_create (client (self s)) (client_state (world s)) req = (cs, inr r) →
  ∃ s',
    run generate_prompt (Some u) s = (inr r, s')
    ∧ memory (self s') = mem
    ∧ get_history mem (world s') = get_history mem (world s) ++ [user; assistant]
    ∧ trace (world s')
      = trace (world s)
        ++ [EvSetCurrentUserInput u; EvAddMessage mem user; EvCreate req;
            EvAddMessage mem assistant]
    ∧ current_user_input (self s') = Some u.
Proof.
  intros mem user assistant req Hu Hr.
  pose (s1 := mkState (set_current_user_input u (self s))
                (add_message mem "user" (__str__ u)
                   (log (EvSetCurrentUserInput u) (world s)))).
  assert (after_input (Some u) s = s1) as Hs1 by (simpl; by rewrite Hu).
  assert (request_of generate_prompt (Some (output_schema (self s1))) s1 = req) as Hreq.
  { unfold request_of, req, s1. simpl. by rewrite get_history_add_message_eq. }
  rewrite run_unfold. cbv zeta. rewrite Hs1, Hreq.
  replace (answer_to req s1) with (cs, inr r : exn + BaseAgentIO) by done.
  simpl. eexists. split; [done|]. simpl. repeat split.
  - rewrite get_history_add_message_eq. unfold get_history at 1. simpl.
    rewrite lookup_insert_eq. simpl. by rewrite <- app_assoc.
  - by rewrite <- !app_assoc.
Qed.

(** A provided input that Python takes for false is treated as no input. *)
Lemma run_false_input u s :
  __bool__ u = false → run generate_prompt (Some u) s = run generate_prompt None s.
Proof. intros Hu. rewrite !run_unfold. simpl. by rewrite Hu. Qed.

(** C5: a turn without input, answered by the client: the response is
    returned, the assistant message is the only message appended to the
    active memory, and the agent's attributes are as before. *)
Theorem run_without_input r cs s :
  let mem := memory (self s) in
  let assistant := mkMessage "assistant" (__str__ r) in
  let req :=
    mkRequest (model (self s))
      (mkMessage "system" (generate_prompt (system_prompt_generator (self s)))
         :: get_history mem (world s))
      (output_schema (self s)) in
  chat_completions_create (client (self s)) (client_state (world s)) req = (cs, inr r) →
  ∃ s',
    run generate_prompt None s = (inr r, s')
    ∧ self s' = self s
    ∧ get_history mem (world s') = get_history mem (world s) ++ [assistant]
    ∧ trace (world s') = trace (world s) ++ [EvCreate req; EvAddMessage mem assistant]
    ∧ appended mem (events_since (length (trace (world s))) s') = [assistant].
Proof.
  intros mem assistant req Hr.
  assert (request_of generate_prompt (Some (output_schema (self s))) s = req)
    as Hreq by done.
  rewrite run_unfold. cbv zeta. simpl after_input. rewrite Hreq.
  replace (answer_to req s) with (cs, inr r : exn + BaseAgentIO) by done.
  exists (after_response r (after_create req s)). split; [done|].
  assert (trace (world (after_response r (after_create req s)))
          = trace (world s) ++ [EvCreate req; EvAddMessage mem assistant]) as Ht.
  { simpl. by rewrite <- app_assoc. }
  repeat split.
  - unfold after_response. simpl. by rewrite get_history_add_message_eq.
  - done.
  - unfold events_since. rewrite Ht, drop_app_length. simpl.
    by rewrite decide_True.
Qed.

(** *** The provider registry *)

Lemma providers_set d a : providers (set_context_providers d a) = d.
Proof. done. Qed.

(** The error message determines the name it was raised for. *)
Lemma append_length (s1 s2 : string) :
  String.length (s1 +:+ s2) = String.length s1 + String.length s2.
Proof.
  induction s1 as [|c s1 IH]; [done|].
  change (String c s1 +:+ s2) with (String c (s1 +:+ s2)). simpl. by rewrite IH.
Qed.

Lemma append_inv_tail (s1 s2 t : string) : s1 +:+ t = s2 +:+ t → s1 = s2.
Proof.
  revert s2. induction s1 as [|c s1 IH]; intros [|c' s2] Heq; [done| | |].
  - apply (f_equal String.length) in Heq.
    change (String c' s2 +:+ t) with (String c' (s2 +:+ t)) in Heq.
    change (EmptyString +:+ t) with t in Heq.
    simpl in Heq. rewrite append_length in Heq. lia.
  - apply (f_equal String.length) in Heq.
    change (String c s1 +:+ t) with (String c (s1 +:+ t)) in Heq.
    change (EmptyString +:+ t) with t in Heq.
    simpl in Heq. rewrite append_length in Heq. lia.
  - change (String c (s1 +:+ t) = String c' (s2 +:+ t)) in Heq.
    injection Heq as -> Heq. f_equal. by apply IH.
Qed.

Lemma not_found_inj n n' : not_found n = not_found n' → n = n'.
Proof.
  unfold not_found. intros [= Heq].
  apply String.app_inj in Heq. by apply append_inv_tail in Heq.
Qed.

(** C7: registering always succeeds, replaces whatever was registered under
    that name, leaves the other names alone, and a lookup of the name then
    returns the new provider. *)
Theorem register_then_get n p s :
  ∃ s',
    register_context_provider n p s = (inr (), s')
    ∧ providers (self s') = <[n := p]> (providers (self s))
    ∧ world s' = world s
    ∧ get_context_provider n s' = (inr p, s').
Proof.
  eexists. split; [by unfold_method|]. simpl. repeat split.
  unfold_method. rewrite providers_set.
  rewrite bool_decide_eq_false_2.
  - by rewrite lookup_insert_eq.
  - intros Hn. apply Hn, elem_of_dom. rewrite lookup_insert_eq. by eexists.
Qed.

(** C8: for a name that is not registered, lookup and removal both raise the
    not-found [KeyError] naming it and leave the state untouched; for a name
    that is registered, lookup returns its provider and removal deletes its
    entry. *)
Theorem lookup_and_unregister n s :
  (providers (self s) !! n = None →
     get_context_provider n s = (inl (not_found n), s)
     ∧ unregister_context_provider n s = (inl (not_found n), s))
  ∧ (∀ p, providers (self s) !! n = Some p →
     get_context_provider n s = (inr p, s)
     ∧ ∃ s', unregister_context_provider n s = (inr (), s')
        ∧ providers (self s') = delete n (providers (self s))
        ∧ world s' = world s).
Proof.
  split.
  - intros Hn. apply not_elem_of_dom in Hn. split; unfold_method.
    + by rewrite bool_decide_eq_true_2.
    + by rewrite bool_decide_eq_false_2.
  - intros p Hp. assert (n ∈ dom (providers (self s))) as Hin
      by (apply elem_of_dom; by eexists).
    split; unfold_method.
    + rewrite bool_decide_eq_false_2 by (intros Hn; by apply Hn).
      by rewrite Hp.
    + rewrite bool_decide_eq_true_2 by done. rewrite Hp.
      eexists. split; [done|]. by simpl.
Qed.

(** *** Sequences of calls *)

Lemma run_self user_input s :
  let s' := (run generate_prompt user_input s).2 in
  model (self s') = model (self s)
  ∧ memory (self s') = memory (self s)
  ∧ initial_memory (self s') = initial_memory (self s).
Proof.
  rewrite run_unfold. cbv zeta.
  destruct (answer_to _ _) as [cs [e|r]]; simpl;
    destruct user_input as [u|]; simpl; try destruct (__bool__ u); done.
Qed.

Lemma run_frame user_input s l :
  l ≠ memory (self s) →
  heap (world (run generate_prompt user_input s).2) !! l = heap (world s) !! l.
Proof.
  intros Hl. rewrite run_unfold. cbv zeta.
  destruct (answer_to _ _) as [cs [e|r]]; simpl;
    destruct user_input as [u|]; simpl; try destruct (__bool__ u); simpl;
    rewrite ?lookup_insert_ne; done.
Qed.

(** Every call keeps the snapshot: the attribute still points to the same
    object, that object still holds the same history, and the active memory
    is still another object. *)
Lemma exec_call_snapshot c s im h :
  initial_memory (self s) = im →
  heap (world s) !! im = Some h →
  memory (self s) ≠ im →
  call_avoids im c →
  let s' := exec_call generate_prompt c s in
  initial_memory (self s') = im ∧ heap (world s') !! im = Some h ∧ memory (self s') ≠ im.
Proof.
  intros Him Hh Hne Hc.
  destruct c as [u|rm| |n|n p|n|r c|l r c]; simpl.
  - destruct (run_self u s) as (_ & Hm & Hi).
    rewrite Hi, Hm, run_frame by done. done.
  - by rewrite get_response_unfold.
  - assert (fresh (dom (heap (world s))) ≠ im) as Hfresh
      by (apply fresh_ne; by eexists).
    unfold_method. by rewrite lookup_insert_ne.
  - unfold_method. case_bool_decide; [done|].
    by destruct (providers (self s) !! n).
  - by unfold_method.
  - unfold_method. case_bool_decide; [|done].
    by destruct (providers (self s) !! n).
  - by rewrite lookup_insert_ne.
  - simpl in Hc. by rewrite lookup_insert_ne.
Qed.

Lemma exec_calls_snapshot calls s im h :
  initial_memory (self s) = im →
  heap (world s) !! im = Some h →
  memory (self s) ≠ im →
  Forall (call_avoids im) calls →
  let s' := exec_calls generate_prompt calls s in
  initial_memory (self s') = im ∧ heap (world s') !! im = Some h ∧ memory (self s') ≠ im.
Proof.
  revert s. induction calls as [|c calls IH]; intros s Him Hh Hne Hcs; [done|].
  inversion Hcs as [|? ? Hc Hrest]; subst.
  destruct (exec_call_snapshot c s _ h eq_refl Hh Hne Hc) as (Hi' & Hh' & Hne').
  simpl. apply IH; done.
Qed.

(** Construction: the snapshot is a new object holding the history the
    memory had at that moment. *)
Lemma construct_snapshot config w :
  config_live config w →
  let s0 := construct config w in
  heap (world s0) !! initial_memory (self s0)
    = Some (get_history (memory (self s0)) (world s0))
  ∧ memory (self s0) ≠ initial_memory (self s0)
  ∧ current_user_input (self s0) = None
  ∧ model (self s0) = config_model config
  ∧ trace (world s0) = trace w.
Proof.
  unfold config_live, construct, __init__, AgentMemory_new, copy. intros Hlive.
  destruct (config_memory config) as [l|]; simpl.
  - assert (fresh (dom (heap w)) ≠ l) as Hne by (by apply fresh_ne).
    repeat split; [|done].
    rewrite lookup_insert_eq. unfold get_history. simpl.
    by rewrite lookup_insert_ne.
  - set (l := fresh (dom (heap w))).
    assert (fresh (dom (<[l:=[]]> (heap w))) ≠ l) as Hne.
    { apply fresh_ne. rewrite lookup_insert_eq. by eexists. }
    repeat split; [|done].
    rewrite lookup_insert_eq. unfold get_history. simpl.
    by rewrite (lookup_insert_ne _ _ _ _ Hne).
Qed.

(** What [reset_memory] does to a state whose snapshot is live. *)
Lemma reset_memory_restores s h :
  heap (world s) !! initial_memory (self s) = Some h →
  let s' := (reset_memory s).2 in
  reset_memory s = (inr (), s')
  ∧ initial_memory (self s') = initial_memory (self s)
  ∧ heap (world s') !! initial_memory (self s') = Some h
  ∧ get_history (memory (self s')) (world s') = h
  ∧ memory (self s') ≠ initial_memory (self s').
Proof.
  intros Hh. unfold_method. unfold get_history.
  assert (fresh (dom (heap (world s))) ≠ initial_memory (self s)) as Hne
    by (apply fresh_ne; by eexists).
  repeat split.
  - by rewrite lookup_insert_ne.
  - simpl. by rewrite lookup_insert_eq, Hh.
  - done.
Qed.

(** C2: whatever the caller does after construction (turns, direct appends
    to the active memory, appends to any memory object other than the
    snapshot, resets, registry operations), the snapshot still holds the
    history captured at construction; [reset_memory] then makes the active
    memory a new object with exactly that history, and a second
    [reset_memory] gives the same history again. *)
Theorem reset_memory_restores_snapshot config w calls :
  let s0 := construct config w in
  let baseline := get_history (memory (self s0)) (world s0) in
  let s := exec_calls generate_prompt calls s0 in
  let s1 := (reset_memory s).2 in
  let s2 := (reset_memory s1).2 in
  config_live config w →
  Forall (call_avoids (initial_memory (self s0))) calls →
  get_history (initial_memory (self s0)) (world s0) = baseline
  ∧ initial_memory (self s) = initial_memory (self s0)
  ∧ get_history (initial_memory (self s)) (world s) = baseline
  ∧ reset_memory s = (inr (), s1)
  ∧ get_history (memory (self s1)) (world s1) = baseline
  ∧ memory (self s1) ≠ initial_memory (self s1)
  ∧ get_history (initial_memory (self s1)) (world s1) = baseline
  ∧ reset_memory s1 = (inr (), s2)
  ∧ get_history (memory (self s2)) (world s2) = baseline
  ∧ get_history (initial_memory (self s2)) (world s2) = baseline.
Proof.
  intros s0 baseline s s1 s2 Hlive Hcalls.
  destruct (construct_snapshot config w Hlive) as (H0 & Hne0 & _).
  fold s0 baseline in H0, Hne0.
  destruct (exec_calls_snapshot calls s0 _ baseline eq_refl H0 Hne0 Hcalls)
    as (Hi & Hh & Hne). fold s in Hi, Hh, Hne.
  rewrite <- Hi in Hh.
  destruct (reset_memory_restores s baseline Hh) as (Hr1 & Hi1 & Hh1 & Hm1 & Hne1).
  fold s1 in Hr1, Hi1, Hh1, Hm1, Hne1.
  destruct (reset_memory_restores s1 baseline Hh1) as (Hr2 & Hi2 & Hh2 & Hm2 & Hne2).
  fold s2 in Hr2, Hi2, Hh2, Hm2, Hne2.
  assert (∀ l (v : World CS), heap v !! l = Some baseline → get_history l v = baseline)
    as Hget by (intros l v Hl; unfold get_history; by rewrite Hl).
  rewrite Hi2 in Hh2. rewrite Hi1 in Hh1.
  repeat split; try done; by apply Hget.
Qed.

(** Every call leaves the model identifier alone and sends only requests
    that carry it. *)
Lemma exec_call_requests c s :
  let s' := exec_call generate_prompt c s in
  model (self s') = model (self s)
  ∧ ∃ evs, trace (world s') = trace (world s) ++ evs
         ∧ Forall (λ req, req_model req = model (self s)) (requests evs).
Proof.
  destruct c as [u|rm| |n|n p|n|r c|l r c]; simpl.
  - rewrite run_unfold. cbv zeta.
    destruct (answer_to _ _) as [cs [e|r]]; simpl;
      (destruct u as [u|]; simpl; [destruct (__bool__ u)|]; simpl);
      (split; [done|]); eexists;
      (split; [rewrite <- ?app_assoc; simpl; reflexivity | simpl; by repeat constructor]).
  - rewrite get_response_unfold. simpl. split; [done|].
    eexists. split; [reflexivity|]. simpl. by repeat constructor.
  - unfold_method. split; [done|]. exists []. by rewrite app_nil_r.
  - split; [|exists []; rewrite app_nil_r; split; [|by constructor]];
      unfold_method; case_bool_decide; try done;
      by destruct (providers (self s) !! n).
  - unfold_method. split; [done|]. exists []. by rewrite app_nil_r.
  - split; [|exists []; rewrite app_nil_r; split; [|by constructor]];
      unfold_method; case_bool_decide; try done;
      by destruct (providers (self s) !! n).
  - split; [done|]. eexists. split; [reflexivity|]. simpl. constructor.
  - split; [done|]. eexists. split; [reflexivity|]. simpl. constructor.
Qed.

Lemma exec_calls_requests calls s :
  let s' := exec_calls generate_prompt calls s in
  model (self s') = model (self s)
  ∧ ∃ evs, trace (world s') = trace (world s) ++ evs
         ∧ Forall (λ req, req_model req = model (self s)) (requests evs).
Proof.
  revert s. induction calls as [|c calls IH]; intros s; simpl.
  - split; [done|]. exists []. by rewrite app_nil_r.
  - destruct (exec_call_requests c s) as (Hm & evs & Ht & Hreq).
    destruct (IH (exec_call generate_prompt c s)) as (Hm' & evs' & Ht' & Hreq').
    split; [congruence|]. exists (evs ++ evs'). split.
    + by rewrite Ht', Ht, <- app_assoc.
    + unfold requests. rewrite omap_app. apply Forall_app. split; [done|].
      by rewrite <- Hm.
Qed.

Lemma construct_model config w :
  model (self (construct config w)) = config_model config
  ∧ trace (world (construct config w)) = trace w
  ∧ current_user_input (self (construct config w)) = None.
Proof.
  unfold construct, __init__, AgentMemory_new, copy.
  by destruct (config_memory config).
Qed.

(** C9: a configuration built without a model identifier holds
    ["gpt-3.5-turbo"], the agent built from it holds the same, and every
    request the agent sends to the client afterwards, whatever the caller
    does, carries that model. *)
Theorem default_model_in_every_request
    (c : Instructor CS) (mem : option loc) (gen : option (SystemPromptGenerator Provider))
    (input output : option Schema) w calls :
  let config := BaseAgentConfig_new c None mem gen input output in
  let s0 := construct config w in
  let s := exec_calls generate_prompt calls s0 in
  config_model config = "gpt-3.5-turbo"
  ∧ model (self s0) = "gpt-3.5-turbo"
  ∧ model (self s) = "gpt-3.5-turbo"
  ∧ Forall (λ req, req_model req = "gpt-3.5-turbo")
      (requests (events_since (length (trace (world s0))) s)).
Proof.
  intros config s0 s.
  destruct (construct_model config w) as (Hm0 & _).
  destruct (exec_calls_requests calls s0) as (Hm & evs & Ht & Hreq).
  fold s0 in Hm0. fold s in Hm, Ht.
  change (config_model config) with "gpt-3.5-turbo" in *.
  rewrite Hm0 in Hm, Hreq. repeat split; try done.
  unfold events_since. by rewrite Ht, drop_app_length.
Qed.

(** *** The tracked input *)

(** What [run] leaves in [current_user_input], whatever the client does: the
    input when Python takes it for true, the previous value otherwise. *)
Lemma run_current_user_input user_input s :
  current_user_input (self (run generate_prompt user_input s).2)
  = if truth user_input then user_input else current_user_input (self s).
Proof.
  rewrite run_unfold. cbv zeta.
  destruct (answer_to _ _) as [cs [e|r]]; simpl;
    destruct user_input as [u|]; simpl; try destruct (__bool__ u); done.
Qed.

(** With an input Python takes for true, recording the input is the first
    thing [run] does: it comes before the append of the user message. *)
Lemma run_records_input_first u s :
  __bool__ u = true →
  ∃ evs,
    trace (world (run generate_prompt (Some u) s).2)
    = trace (world s)
      ++ EvSetCurrentUserInput u
         :: EvAddMessage (memory (self s)) (mkMessage "user" (__str__ u)) :: evs.
Proof.
  intros Hu. rewrite run_unfold. cbv zeta. simpl after_input. rewrite Hu.
  destruct (answer_to _ _) as [cs [e|r]]; simpl;
    eexists; rewrite <- ?app_assoc; simpl; reflexivity.
Qed.

End Properties.

(** * The stub world at work *)

(** The scenario of one turn: an agent with empty memory and the [pong]
    client is given [ping]; the memory then holds the user message and the
    assistant message, in that order, and [pong] is returned. *)
Example ping_pong :
  let out := run stub_prompt (Some ping) pong_agent in
  out.1 = inr pong
  ∧ get_history (memory (self out.2)) (world out.2)
    = [mkMessage "user" (chat_message_json "ping");
       mkMessage "assistant" (chat_message_json "pong")].
Proof. by vm_compute. Qed.

(** C1: the same agent given a provided input that Python takes for false:
    the client is called on the unchanged history, [pong] is returned, and
    the assistant message is the only message appended; no user message
    is. *)
Theorem run_false_input_appends_no_user_message :
  let out := run stub_prompt (Some empty_batch) pong_agent in
  let mem := memory (self pong_agent) in
  out.1 = inr pong
  ∧ memory (self out.2) = mem
  ∧ get_history mem (world pong_agent) = []
  ∧ get_history mem (world out.2) = [mkMessage "assistant" (__str__ pong)]
  ∧ appended mem (trace (world out.2)) = [mkMessage "assistant" (__str__ pong)]
  ∧ requests (trace (world out.2))
    = [mkRequest "gpt-3.5-turbo"
         [mkMessage "system" (stub_prompt SystemPromptGenerator_new)]
         BaseAgentOutputSchema].
Proof. by vm_compute. Qed.

(** C10: the tracked input is [None] after construction and [ping] after a
    turn with [ping]; a following turn with a provided input that Python
    takes for false does not record that input: the attribute still holds
    [ping]. *)
Theorem current_user_input_skips_false_input :
  let s1 := (run stub_prompt (Some ping) pong_agent).2 in
  let s2 := (run stub_prompt (Some empty_batch) s1).2 in
  current_user_input (self pong_agent) = None
  ∧ current_user_input (self s1) = Some ping
  ∧ current_user_input (self s2) = Some ping
  ∧ current_user_input (self s2) ≠ Some empty_batch.
Proof. vm_compute. by repeat split. Qed.

Lemma reset_memory_restores_snapshot_witness :
  config_live seeded_config seeded_world
  ∧ Forall (call_avoids (initial_memory (self seeded_agent))) demo_calls
  ∧ let s := exec_calls stub_prompt demo_calls seeded_agent in
    let s1 := (reset_memory s).2 in
    get_history (initial_memory (self s)) (world s) = [mkMessage "assistant" "Hello!"]
    ∧ get_history (memory (self s1)) (world s1) = [mkMessage "assistant" "Hello!"].
Proof.
  assert (config_live seeded_config seeded_world) as Hlive
    by (vm_compute; by eexists).
  assert (Forall (call_avoids (initial_memory (self seeded_agent))) demo_calls) as Hcalls
    by (repeat constructor; by vm_compute).
  split; [exact Hlive|]. split; [exact Hcalls|].
  destruct (reset_memory_restores_snapshot stub_prompt seeded_config seeded_world
              demo_calls Hlive Hcalls) as (_ & _ & Hsnap & _ & Hreset & _).
  split; [exact Hsnap | exact Hreset].
Defined.

Lemma get_response_failure_propagates_witness :
  chat_completions_create (client (self failing_agent))
    (client_state (world failing_agent))
    (request_of stub_prompt None failing_agent)
    = (1, inl (CollaboratorError "connection refused"))
  ∧ (get_response stub_prompt None failing_agent).1
    = inl (CollaboratorError "connection refused")
  ∧ heap (world (get_response stub_prompt None failing_agent).2)
    = heap (world failing_agent).
Proof.
  assert (chat_completions_create (client (self failing_agent))
            (client_state (world failing_agent))
            (request_of stub_prompt None failing_agent)
          = (1, inl (CollaboratorError "connection refused"))) as Hfail
    by reflexivity.
  split; [exact Hfail|].
  destruct (get_response_failure_propagates stub_prompt None failing_agent _ _ Hfail)
    as (s' & Hrun & _ & Hheap & _).
  rewrite Hrun. split; [reflexivity | exact Hheap].
Defined.

Lemma run_without_input_witness :
  chat_completions_create (client (self seeded_agent))
    (client_state (world seeded_agent))
    (request_of stub_prompt (Some BaseAgentOutputSchema) seeded_agent)
    = (1, inr pong)
  ∧ (run stub_prompt None seeded_agent).1 = inr pong
  ∧ get_history 1 (world (run stub_prompt None seeded_agent).2)
    = [mkMessage "assistant" "Hello!"; mkMessage "assistant" (__str__ pong)].
Proof.
  assert (chat_completions_create (client (self seeded_agent))
            (client_state (world seeded_agent))
            (request_of stub_prompt (Some BaseAgentOutputSchema) seeded_agent)
          = (1, inr pong)) as Hpong by reflexivity.
  split; [exact Hpong|].
  destruct (run_without_input stub_prompt pong 1 seeded_agent Hpong)
    as (s' & Hrun & _ & Hhist & _).
  rewrite Hrun. split; [reflexivity | exact Hhist].
Defined.

Lemma lookup_and_unregister_witness :
  providers (self seeded_agent) !! "weather" = None
  ∧ get_context_provider "weather" seeded_agent
    = (inl (KeyError "Context provider 'weather' not found."), seeded_agent)
  ∧ unregister_context_provider "weather" seeded_agent
    = (inl (KeyError "Context provider 'weather' not found."), seeded_agent)
  ∧ providers (self with_weather) !! "weather" = Some "sunny"
  ∧ get_context_provider "weather" with_weather = (inr "sunny", with_weather).
Proof.
  assert (providers (self seeded_agent) !! "weather" = None) as Habsent by reflexivity.
  assert (providers (self with_weather) !! "weather" = Some "sunny") as Hpresent
    by reflexivity.
  destruct (lookup_and_unregister "weather" seeded_agent) as [Hno _].
  destruct (Hno Habsent) as [Hget Hdel].
  destruct (lookup_and_unregister "weather" with_weather) as [_ Hyes].
  destruct (Hyes _ Hpresent) as [Hget' _].
  repeat split; assumption.
Defined.

(** * Further properties of the turn, the memory and the registry *)

Section Further.

Context {CS Provider : Type}.
Variable generate_prompt : SystemPromptGenerator Provider → string.

Implicit Types (s : State CS Provider) (a : BaseAgent CS Provider) (w : World CS).
Implicit Types (u r : BaseAgentIO) (rm : option Schema) (n : string) (p : Provider).
Implicit Types (config : BaseAgentConfig CS Provider) (calls : list (Call Provider)).
Implicit Types (c : Call Provider) (user_input : option BaseAgentIO).

(** *** One turn, whatever the client does *)

(** The guarded first step changes one attribute at most. *)
Lemma after_input_self user_input s :
  let a' := self (after_input user_input s) in
  input_schema a' = input_schema (self s)
  ∧ output_schema a' = output_schema (self s)
  ∧ client a' = client (self s)
  ∧ model a' = model (self s)
  ∧ memory a' = memory (self s)
  ∧ system_prompt_generator a' = system_prompt_generator (self s)
  ∧ initial_memory a' = initial_memory (self s).
Proof. destruct user_input as [u|]; simpl; [destruct (__bool__ u)|]; done. Qed.

Lemma after_input_history user_input s :
  get_history (memory (self s)) (world (after_input user_input s))
  = get_history (memory (self s)) (world s) ++ input_messages user_input.
Proof.
  destruct user_input as [u|]; simpl; [destruct (__bool__ u)|];
    simpl; rewrite ?app_nil_r; [|done..].
  by rewrite get_history_add_message_eq.
Qed.

(** After the first step, [run] touches no attribute. *)
Lemma run_self_after_input user_input s :
  self (run generate_prompt user_input s).2 = self (after_input user_input s).
Proof.
  rewrite run_unfold. cbv zeta. by destruct (answer_to _ _) as [cs [e|r]].
Qed.

(** The history of the active memory after [run]: the input message when the
    input was taken, then the assistant message when the client answered. *)
Lemma run_history user_input s :
  get_history (memory (self s)) (world (run generate_prompt user_input s).2)
  = get_history (memory (self s)) (world s)
    ++ input_messages user_input
    ++ match (run generate_prompt user_input s).1 with
       | inr r => [mkMessage "assistant" (__str__ r)]
       | inl _ => []
       end.
Proof.
  destruct (after_input_self user_input s) as (_ & _ & _ & _ & Hmem & _).
  rewrite run_unfold. cbv zeta.
  destruct (answer_to _ _) as [cs [e|r]]; simpl.
  - rewrite app_nil_r. apply after_input_history.
  - rewrite Hmem, get_history_add_message_eq, app_assoc. f_equal.
    apply after_input_history.
Qed.

(** X1: a turn with an input Python takes for true whose client call
    fails: the exception is raised to the caller, and the user message stays
    in the active memory with no assistant message after it; the input has
    been recorded. *)
Theorem failed_turn_keeps_user_message u e cs s :
  let mem := memory (self s) in
  let user := mkMessage "user" (__str__ u) in
  let req :=
    mkRequest (model (self s))
      (mkMessage "system" (generate_prompt (system_prompt_generator (self s)))
         :: get_history mem (world s) ++ [user])
      (output_schema (self s)) in
  __bool__ u = true →
  chat_completions_create (client (self s)) (client_state (world s)) req = (cs, inl e) →
  ∃ s',
    run generate_prompt (Some u) s = (inl e, s')
    ∧ get_history mem (world s') = get_history mem (world s) ++ [user]
    ∧ trace (world s')
      = trace (world s) ++ [EvSetCurrentUserInput u; EvAddMessage mem user; EvCreate req]
    ∧ current_user_input (self s') = Some u
    ∧ memory (self s') = mem.
Proof.
  intros mem user req Hu He.
  pose (s1 := mkState (set_current_user_input u (self s))
                (add_message mem "user" (__str__ u)
                   (log (EvSetCurrentUserInput u) (world s)))).
  assert (after_input (Some u) s = s1) as Hs1 by (simpl; by rewrite Hu).
  assert (request_of generate_prompt (Some (output_schema (self s1))) s1 = req) as Hreq.
  { unfold request_of, req, s1. simpl. by rewrite get_history_add_message_eq. }
  rewrite run_unfold. cbv zeta. rewrite Hs1, Hreq.
  replace (answer_to req s1) with (cs, inl e : exn + BaseAgentIO) by done.
  simpl. eexists. split; [done|]. simpl. repeat split.
  - unfold get_history at 1. simpl. by rewrite lookup_insert_eq.
  - by rewrite <- !app_assoc.
Qed.

(** X2: a turn without input, or with an input Python takes for false,
    whose client call fails: the exception is raised, no attribute changes and
    no memory object changes. *)
Theorem failed_turn_without_input_changes_nothing user_input e cs s :
  truth user_input = false →
  chat_completions_create (client (self s)) (client_state (world s))
    (request_of generate_prompt (Some (output_schema (self s))) s) = (cs, inl e) →
  ∃ s',
    run generate_prompt user_input s = (inl e, s')
    ∧ self s' = self s
    ∧ heap (world s') = heap (world s)
    ∧ trace (world s')
      = trace (world s)
        ++ [EvCreate (request_of generate_prompt (Some (output_schema (self s))) s)].
Proof.
  intros Hfalse He.
  assert (after_input user_input s = s) as Hs.
  { destruct user_input as [u|]; simpl in *; [by rewrite Hfalse|done]. }
  rewrite run_unfold. cbv zeta. rewrite Hs. unfold answer_to at 1. rewrite He.
  simpl. eexists. by split.
Qed.

(** X3: with a client that answers every request, a sequence of turns whose
    inputs Python takes for true leaves the history extended by one user
    message and one assistant message per turn, in turn order, each user
    message carrying its input. *)
Theorem turns_build_alternating_history (us : list BaseAgentIO) s :
  always_answers (client (self s)) →
  Forall (λ u, __bool__ u = true) us →
  let s' := exec_calls generate_prompt (map (λ u, CallRun (Some u)) us) s in
  ∃ rs,
    length rs = length us
    ∧ memory (self s') = memory (self s)
    ∧ get_history (memory (self s)) (world s')
      = get_history (memory (self s)) (world s) ++ concat (zip_with turn us rs).
Proof.
  intros Hclient Hus. revert s Hclient.
  induction Hus as [|u us Hu Hus IH]; intros s Hclient; simpl.
  - exists []. by rewrite app_nil_r.
  - set (s1 := (run generate_prompt (Some u) s).2).
    destruct (after_input_self (Some u) s) as (_ & _ & Hc & _ & Hm & _).
    assert (self s1 = self (after_input (Some u) s)) as Hself
      by apply run_self_after_input.
    assert (client (self s1) = client (self s)) as Hc1 by (by rewrite Hself).
    assert (memory (self s1) = memory (self s)) as Hm1 by (by rewrite Hself).
    destruct (Hclient (client_state (world (after_input (Some u) s)))
                (request_of generate_prompt
                   (Some (output_schema (self (after_input (Some u) s))))
                   (after_input (Some u) s))) as (cs' & r & Hr).
    assert ((run generate_prompt (Some u) s).1 = inr r) as Hout.
    { rewrite run_unfold. cbv zeta. unfold answer_to at 1. rewrite Hc, Hr. done. }
    pose proof (run_history (Some u) s) as Hh. rewrite Hout in Hh.
    simpl in Hh. rewrite Hu in Hh. fold s1 in Hh.
    destruct (IH s1) as (rs & Hlen & Hmem & Hhist); [by rewrite Hc1|].
    exists (r :: rs). simpl. repeat split.
    + by rewrite Hlen.
    + by rewrite Hmem.
    + rewrite <- Hm1, Hhist, Hm1, Hh. by rewrite <- app_assoc.
Qed.

(** *** Caller programs *)

(** The attributes a call can change are [current_user_input], [memory] (a
    reset only) and the generator (a registry operation only). *)
Lemma exec_call_attributes c s :
  let s' := exec_call generate_prompt c s in
  input_schema (self s') = input_schema (self s)
  ∧ output_schema (self s') = output_schema (self s)
  ∧ client (self s') = client (self s)
  ∧ model (self s') = model (self s)
  ∧ initial_memory (self s') = initial_memory (self s)
  ∧ (is_reset c = false → memory (self s') = memory (self s))
  ∧ (changes_registry c = false →
     system_prompt_generator (self s') = system_prompt_generator (self s)).
Proof.
  destruct c as [u|rm| |n|n p|n|r c|l r c]; simpl.
  - rewrite run_self_after_input.
    destruct (after_input_self u s) as (? & ? & ? & ? & ? & ? & ?). done.
  - by rewrite get_response_unfold.
  - by unfold_method.
  - unfold_method. case_bool_decide; [done|]. by destruct (providers (self s) !! n).
  - by unfold_method.
  - unfold_method. case_bool_decide; [|done]. by destruct (providers (self s) !! n).
  - done.
  - done.
Qed.

(** The events of a call extend the trace, and the requests among them are
    the ones the call is bound to send. *)
Lemma exec_call_trace c s :
  ∃ evs,
    trace (world (exec_call generate_prompt c s)) = trace (world s) ++ evs
    ∧ requests evs = call_requests generate_prompt c s.
Proof.
  destruct c as [u|rm| |n|n p|n|r c|l r c]; simpl.
  - rewrite run_unfold. cbv zeta.
    destruct (answer_to _ _) as [cs [e|r]]; simpl;
      (destruct u as [u|]; simpl; [destruct (__bool__ u)|]; simpl);
      eexists; (split; [rewrite <- ?app_assoc; simpl; reflexivity | done]).
  - rewrite get_response_unfold. simpl. by eexists.
  - unfold_method. exists []. by rewrite app_nil_r.
  - exists []. rewrite app_nil_r. split; [|done].
    unfold_method. case_bool_decide; [done|]. by destruct (providers (self s) !! n).
  - unfold_method. exists []. by rewrite app_nil_r.
  - exists []. rewrite app_nil_r. split; [|done].
    unfold_method. case_bool_decide; [|done]. by destruct (providers (self s) !! n).
  - by eexists.
  - by eexists.
Qed.

(** An invariant [I] of the permitted calls that makes every request they
    send satisfy [P] holds along any program of permitted calls, and every
    request of the program satisfies [P]. *)
Lemma exec_calls_invariant (I : State CS Provider → Prop) (P : Request → Prop)
    (ok : Call Provider → bool) :
  (∀ c s, ok c = true → I s →
     I (exec_call generate_prompt c s) ∧ Forall P (call_requests generate_prompt c s)) →
  ∀ calls s, Forall (λ c, ok c = true) calls → I s →
    I (exec_calls generate_prompt calls s)
    ∧ ∃ evs, trace (world (exec_calls generate_prompt calls s)) = trace (world s) ++ evs
           ∧ Forall P (requests evs).
Proof.
  intros Hstep calls. induction calls as [|c calls IH]; intros s Hok HI; simpl.
  - split; [done|]. exists []. by rewrite app_nil_r.
  - inversion Hok as [|? ? Hc Hrest]; subst.
    destruct (Hstep c s Hc HI) as [HI' HP].
    destruct (exec_call_trace c s) as (evs & Ht & Hreq).
    destruct (IH _ Hrest HI') as (HI'' & evs' & Ht' & HP').
    split; [done|]. exists (evs ++ evs'). split.
    + by rewrite Ht', Ht, <- app_assoc.
    + unfold requests in *. rewrite omap_app, Hreq. by apply Forall_app.
Qed.

(** X4: as long as the caller does not reset, the active memory stays the
    same object and its history only grows: what was there before is a prefix
    of what is there after. *)
Theorem history_only_grows_without_reset calls s :
  Forall (λ c, is_reset c = false) calls →
  let s' := exec_calls generate_prompt calls s in
  memory (self s') = memory (self s)
  ∧ get_history (memory (self s)) (world s)
      `prefix_of` get_history (memory (self s)) (world s').
Proof.
  revert s. induction calls as [|c calls IH]; intros s Hcalls; simpl; [done|].
  inversion Hcalls as [|? ? Hc Hrest]; subst.
  destruct (exec_call_attributes c s) as (_ & _ & _ & _ & _ & Hmem & _).
  specialize (Hmem Hc).
  pose proof (IH (exec_call generate_prompt c s) Hrest) as IH'. cbv zeta in IH'.
  destruct IH' as [Hm Hp].
  split; [congruence|]. rewrite Hmem in Hp. etrans; [|exact Hp].
  clear. destruct c as [u|rm| |n|n p|n|r c|l r c]; simpl.
  - rewrite run_history. by eexists.
  - by rewrite get_response_unfold.
  - unfold_method. unfold get_history. simpl.
    destruct (decide (fresh (dom (heap (world s))) = memory (self s))) as [Heq|Hne].
    + rewrite <- Heq, lookup_insert_eq.
      rewrite (proj1 (not_elem_of_dom _ _) (is_fresh _)). apply prefix_nil.
    + by rewrite lookup_insert_ne.
  - unfold_method. case_bool_decide; [done|]. by destruct (providers (self s) !! n).
  - by unfold_method.
  - unfold_method. case_bool_decide; [|done]. by destruct (providers (self s) !! n).
  - rewrite get_history_add_message_eq. by eexists.
  - destruct (decide (l = memory (self s))) as [->|Hne].
    + rewrite get_history_add_message_eq. by eexists.
    + by rewrite get_history_add_message_ne.
Qed.

Lemma exec_calls_count calls s :
  ∃ evs,
    trace (world (exec_calls generate_prompt calls s)) = trace (world s) ++ evs
    ∧ length (requests evs) = length (filter (λ c, calls_client c = true) calls).
Proof.
  revert s. induction calls as [|c calls IH]; intros s; simpl.
  - exists []. by rewrite app_nil_r.
  - destruct (exec_call_trace c s) as (evs & Ht & Hreq).
    destruct (IH (exec_call generate_prompt c s)) as (evs' & Ht' & Hlen).
    exists (evs ++ evs'). split; [by rewrite Ht', Ht, <- app_assoc|].
    unfold requests in *. rewrite omap_app, length_app, Hreq, Hlen, filter_cons.
    by destruct c.
Qed.

(** X5: along any caller program the client is called once for every [run]
    and every [get_response], and not otherwise: no call is retried, and
    resets, registry operations and appends never reach the client. *)
Theorem one_request_per_client_call calls s :
  length (requests (events_since (length (trace (world s)))
                      (exec_calls generate_prompt calls s)))
  = length (filter (λ c, calls_client c = true) calls).
Proof.
  destruct (exec_calls_count calls s) as (evs & Ht & Hlen).
  unfold events_since. by rewrite Ht, drop_app_length.
Qed.

(** X6: as long as the caller does not register or unregister a provider,
    the generator is not touched, and every request starts with the system
    message carrying the prompt of that same generator. *)
Theorem system_prompt_stable_without_registry_calls calls s :
  Forall (λ c, negb (changes_registry c) = true) calls →
  let s' := exec_calls generate_prompt calls s in
  let system := mkMessage "system" (generate_prompt (system_prompt_generator (self s))) in
  system_prompt_generator (self s') = system_prompt_generator (self s)
  ∧ Forall (λ req, head (req_messages req) = Some system)
      (requests (events_since (length (trace (world s))) s')).
Proof.
  intros Hcalls.
  destruct (exec_calls_invariant
              (λ s', system_prompt_generator (self s') = system_prompt_generator (self s))
              (λ req, head (req_messages req)
                      = Some (mkMessage "system"
                                (generate_prompt (system_prompt_generator (self s)))))
              (λ c, negb (changes_registry c))) with (calls := calls) (s := s)
    as (Hgen & evs & Ht & Hreq); try done.
  - intros c s1 Hc Hs1. apply negb_true_iff in Hc.
    destruct (exec_call_attributes c s1) as (_ & _ & _ & _ & _ & _ & Hg).
    split; [by rewrite Hg|].
    destruct c as [u|rm| |n|n p|n|r c|l r c]; simpl; repeat constructor; simpl.
    + destruct (after_input_self u s1) as (_ & _ & _ & _ & _ & Hg' & _).
      by rewrite Hg', Hs1.
    + by rewrite Hs1.
  - simpl. split; [done|]. unfold events_since. by rewrite Ht, drop_app_length.
Qed.

(** X7: whatever model identifier the configuration holds, explicit or
    default, every request the agent sends after construction carries it. *)
Theorem requests_carry_configured_model config w calls :
  let s0 := construct config w in
  let s := exec_calls generate_prompt calls s0 in
  model (self s) = config_model config
  ∧ Forall (λ req, req_model req = config_model config)
      (requests (events_since (length (trace (world s0))) s)).
Proof.
  intros s0 s.
  destruct (construct_model config w) as (Hm0 & _).
  destruct (exec_calls_requests generate_prompt calls s0) as (Hm & evs & Ht & Hreq).
  fold s0 in Hm0. fold s in Hm, Ht. rewrite Hm0 in Hm, Hreq.
  split; [done|]. unfold events_since. by rewrite Ht, drop_app_length.
Qed.

Lemma construct_schemas config w :
  input_schema (self (construct config w))
    = default BaseAgentInputSchema (config_input_schema config)
  ∧ output_schema (self (construct config w))
    = default BaseAgentOutputSchema (config_output_schema config).
Proof.
  unfold construct, __init__, AgentMemory_new, copy.
  by destruct (config_memory config).
Qed.

(** X8: the schemas are resolved once, at construction: the configured one
    when the configuration names one, the class default otherwise.  As long as
    the caller passes no explicit schema to [get_response], every request asks
    for the resolved output schema. *)
Theorem requests_ask_for_resolved_output_schema config w calls :
  Forall (λ c, negb (overrides_schema c) = true) calls →
  let s0 := construct config w in
  let s := exec_calls generate_prompt calls s0 in
  let resolved := default BaseAgentOutputSchema (config_output_schema config) in
  input_schema (self s) = default BaseAgentInputSchema (config_input_schema config)
  ∧ output_schema (self s) = resolved
  ∧ Forall (λ req, req_response_model req = resolved)
      (requests (events_since (length (trace (world s0))) s)).
Proof.
  intros Hcalls s0 s resolved.
  destruct (construct_schemas config w) as [Hin Hout]. fold s0 in Hin, Hout.
  destruct (exec_calls_invariant
              (λ s', input_schema (self s') = input_schema (self s0)
                     ∧ output_schema (self s') = resolved)
              (λ req, req_response_model req = resolved)
              (λ c, negb (overrides_schema c))) with (calls := calls) (s := s0)
    as ([Hi Ho] & evs & Ht & Hreq); try done.
  - intros c s1 Hc [Hi1 Ho1]. apply negb_true_iff in Hc.
    destruct (exec_call_attributes c s1) as (Hi' & Ho' & _).
    split; [by rewrite Hi', Ho'|].
    destruct c as [u|[rm|]| |n|n p|n|r c|l r c]; simpl; try done;
      repeat constructor; simpl; [|done].
    destruct (after_input_self u s1) as (_ & Ho'' & _). done.
  - fold s in Hi, Ho, Ht. repeat split; [congruence|done|].
    unfold events_since. by rewrite Ht, drop_app_length.
Qed.

(** *** Memory objects and references *)


(** X10: when the configuration names no memory, the agent starts with a
    new empty memory and a new empty snapshot, two different objects; no
    memory object that existed before is changed, and construction neither
    calls the client nor logs anything. *)
Theorem construction_without_memory_starts_empty config w :
  config_memory config = None →
  let s0 := construct config w in
  get_history (memory (self s0)) (world s0) = []
  ∧ get_history (initial_memory (self s0)) (world s0) = []
  ∧ memory (self s0) ≠ initial_memory (self s0)
  ∧ heap w !! memory (self s0) = None
  ∧ heap w !! initial_memory (self s0) = None
  ∧ (∀ l, is_Some (heap w !! l) → heap (world s0) !! l = heap w !! l)
  ∧ client_state (world s0) = client_state w
  ∧ trace (world s0) = trace w.
Proof.
  intros Hmem s0.
  assert (config_live config w) as Hlive by (unfold config_live; by rewrite Hmem).
  destruct (construct_snapshot config w Hlive) as (Hsnap & Hne & _).
  fold s0 in Hsnap, Hne. revert Hsnap Hne.
  unfold s0, construct, __init__, AgentMemory_new, copy. rewrite Hmem. simpl.
  set (l1 := fresh (dom (heap w))).
  set (l2 := fresh (dom (<[l1:=[]]> (heap w)))).
  intros Hsnap Hne.
  assert (heap w !! l1 = None) as H1 by apply not_elem_of_dom, is_fresh.
  assert (<[l1:=[]]> (heap w) !! l2 = None) as H2 by apply not_elem_of_dom, is_fresh.
  assert (l1 ≠ l2) as H12 by done.
  rewrite lookup_insert_ne in H2 by done.
  unfold get_history. simpl. repeat split; try done.
  - by rewrite lookup_insert_ne, lookup_insert_eq.
  - by rewrite lookup_insert_eq, lookup_insert_eq.
  - intros l [h Hl]. rewrite !lookup_insert_ne; [done|congruence|congruence].
Qed.

(** X11: [reset_memory] rebinds, it does not clear: the new active memory
    is none of the objects that existed, every such object (the old active
    memory among them) keeps its history, and a later turn appends nothing
    to it. *)
Theorem reset_memory_detaches_old_memory l user_input s :
  is_Some (heap (world s) !! l) →
  let s1 := (reset_memory s).2 in
  let s2 := (run generate_prompt user_input s1).2 in
  memory (self s1) ≠ l
  ∧ heap (world s1) !! l = heap (world s) !! l
  ∧ heap (world s2) !! l = heap (world s) !! l.
Proof.
  intros Hl s1 s2.
  assert (memory (self s1) ≠ l ∧ heap (world s1) !! l = heap (world s) !! l) as [Hne Hh].
  { unfold s1. unfold_method. assert (fresh (dom (heap (world s))) ≠ l) as Hne
      by by apply fresh_ne.
    split; [done|]. by rewrite lookup_insert_ne. }
  repeat split; try done. unfold s2. by rewrite run_frame.
Qed.

(** X12: after any caller program and a reset, the next request carries the
    system message followed by the history captured at construction, and
    nothing of the discarded conversation. *)
Theorem request_after_reset_sends_baseline config w calls rm :
  let s0 := construct config w in
  let baseline := get_history (memory (self s0)) (world s0) in
  let s1 := (reset_memory (exec_calls generate_prompt calls s0)).2 in
  let system := mkMessage "system" (generate_prompt (system_prompt_generator (self s1))) in
  config_live config w →
  Forall (call_avoids (initial_memory (self s0))) calls →
  ∃ req,
    requests (events_since (length (trace (world s1)))
                (get_response generate_prompt rm s1).2) = [req]
    ∧ req_messages req = system :: baseline.
Proof.
  intros s0 baseline s1 system Hlive Hcalls.
  destruct (construct_snapshot config w Hlive) as (H0 & Hne0 & _).
  fold s0 baseline in H0, Hne0.
  destruct (exec_calls_snapshot generate_prompt calls s0 _ baseline eq_refl H0 Hne0 Hcalls)
    as (Hi & Hh & Hne).
  rewrite <- Hi in Hh.
  destruct (reset_memory_restores _ baseline Hh) as (_ & _ & _ & Hm1 & _).
  fold s1 in Hm1.
  exists (request_of generate_prompt rm s1). split.
  - rewrite get_response_unfold. unfold events_since. simpl.
    by rewrite drop_app_length.
  - unfold request_of. cbn [req_messages]. by rewrite Hm1.
Qed.

(** *** The registry *)

(** What a lookup yields is decided by the registry alone. *)
Lemma get_context_provider_result n s :
  get_context_provider n s
  = (match providers (self s) !! n with
     | Some p => inr p
     | None => inl (not_found n)
     end, s).
Proof.
  unfold_method. destruct (providers (self s) !! n) as [p|] eqn:Hn.
  - rewrite bool_decide_eq_false_2; [done|].
    intros Hdom. apply Hdom, elem_of_dom. by eexists.
  - rewrite bool_decide_eq_true_2; [done|]. by apply not_elem_of_dom.
Qed.

Lemma unregister_context_provider_result n s :
  unregister_context_provider n s
  = match providers (self s) !! n with
    | Some _ => (inr (), mkState (set_context_providers (delete n (providers (self s)))
                                    (self s)) (world s))
    | None => (inl (not_found n), s)
    end.
Proof.
  unfold_method. destruct (providers (self s) !! n) as [p|] eqn:Hn.
  - rewrite bool_decide_eq_true_2; [done|]. apply elem_of_dom. by eexists.
  - rewrite bool_decide_eq_false_2; [done|]. by apply not_elem_of_dom.
Qed.

Lemma set_context_providers_id a : set_context_providers (providers a) a = a.
Proof. by destruct a as [? ? ? ? ? [[?]] ? ?]. Qed.

(** X13: registering a name that was free and unregistering it again gives
    back exactly the state before, registry included. *)
Theorem register_unregister_round_trip n p s :
  providers (self s) !! n = None →
  unregister_context_provider n (register_context_provider n p s).2 = (inr (), s).
Proof.
  intros Hn. rewrite unregister_context_provider_result. unfold_method.
  rewrite providers_set, lookup_insert_eq, delete_insert_id by done.
  destruct s as [a w]. simpl in *. f_equal. f_equal.
  by destruct a as [? ? ? ? ? [[?]] ? ?].
Qed.

(** X14: once a registered name has been unregistered it is gone: a lookup
    of it and a second removal both raise the not-found error and change
    nothing. *)
Theorem unregister_removes_for_good n p s :
  providers (self s) !! n = Some p →
  let s1 := (unregister_context_provider n s).2 in
  providers (self s1) = delete n (providers (self s))
  ∧ get_context_provider n s1 = (inl (not_found n), s1)
  ∧ unregister_context_provider n s1 = (inl (not_found n), s1).
Proof.
  intros Hn s1.
  assert (providers (self s1) = delete n (providers (self s))) as Hs1.
  { unfold s1. rewrite unregister_context_provider_result, Hn. done. }
  split; [done|].
  rewrite get_context_provider_result, unregister_context_provider_result, Hs1.
  by rewrite lookup_delete_eq.
Qed.

(** X15: registering or unregistering one name does not change what a
    lookup of another name yields. *)
Theorem registry_operations_are_local n n' p s :
  n ≠ n' →
  (get_context_provider n (register_context_provider n' p s).2).1
    = (get_context_provider n s).1
  ∧ (get_context_provider n (unregister_context_provider n' s).2).1
    = (get_context_provider n s).1.
Proof.
  intros Hne. rewrite !get_context_provider_result. simpl. split.
  - unfold_method. rewrite providers_set. by rewrite lookup_insert_ne.
  - rewrite unregister_context_provider_result.
    destruct (providers (self s) !! n'); simpl; [|done].
    rewrite providers_set. by rewrite lookup_delete_ne.
Qed.

(** X16: of two registrations under one name the last one wins, and the
    state is the same as if the first had never happened. *)
Theorem last_registration_wins n (p1 p2 : Provider) s :
  register_context_provider n p2 (register_context_provider n p1 s).2
  = register_context_provider n p2 s.
Proof.
  unfold_method. rewrite providers_set. by rewrite insert_insert_eq.
Qed.

(** X17: the provider operations work on the registry only.  A lookup leaves
    the whole state as it was, found or not; registering and unregistering
    leave every memory object, the trace, the state behind the client and all
    attributes other than the generator as they were, whether they return or
    raise. *)
Theorem provider_operations_touch_only_registry n p s :
  let s1 := (register_context_provider n p s).2 in
  let s2 := (unregister_context_provider n s).2 in
  (get_context_provider n s).2 = s
  ∧ world s1 = world s
  ∧ self s1 = set_context_providers (<[n := p]> (providers (self s))) (self s)
  ∧ world s2 = world s
  ∧ self s2 = set_context_providers (providers (self s2)) (self s).
Proof.
  intros s1 s2. split; [by rewrite get_context_provider_result|].
  split; [by unfold_method|]. split; [by unfold_method|].
  unfold s2. rewrite unregister_context_provider_result.
  destruct (providers (self s) !! n); simpl; [done|].
  by rewrite set_context_providers_id.
Qed.

End Further.

(** * The further properties at work *)

Lemma failed_turn_keeps_user_message_witness :
  __bool__ ping = true
  ∧ chat_completions_create failing_client 0
      (mkRequest "gpt-4"
         [mkMessage "system" (stub_prompt SystemPromptGenerator_new);
          mkMessage "user" (__str__ ping)]
         (CustomSchema "Verdict"))
    = (1, inl (CollaboratorError "connection refused"))
  ∧ ∃ s', run stub_prompt (Some ping) failing_agent
            = (inl (CollaboratorError "connection refused"), s')
          ∧ get_history 1 (world s') = [mkMessage "user" (__str__ ping)].
Proof.
  split; [reflexivity|]. split; [reflexivity|].
  destruct (failed_turn_keeps_user_message stub_prompt ping
              (CollaboratorError "connection refused") 1 failing_agent
              eq_refl eq_refl) as (s' & Hrun & Hhist & _).
  exists s'. split; [exact Hrun | exact Hhist].
Defined.

Lemma failed_turn_without_input_changes_nothing_witness :
  truth (Some empty_batch) = false
  ∧ chat_completions_create (client (self failing_agent))
      (client_state (world failing_agent))
      (request_of stub_prompt (Some (output_schema (self failing_agent))) failing_agent)
    = (1, inl (CollaboratorError "connection refused"))
  ∧ ∃ s', run stub_prompt (Some empty_batch) failing_agent
            = (inl (CollaboratorError "connection refused"), s')
          ∧ heap (world s') = heap (world failing_agent).
Proof.
  split; [reflexivity|]. split; [reflexivity|].
  destruct (failed_turn_without_input_changes_nothing stub_prompt (Some empty_batch)
              (CollaboratorError "connection refused") 1 failing_agent
              eq_refl eq_refl) as (s' & Hrun & _ & Hheap & _).
  exists s'. split; [exact Hrun | exact Hheap].
Defined.

Lemma turns_build_alternating_history_witness :
  always_answers (client (self pong_agent))
  ∧ Forall (λ u, __bool__ u = true) [ping; ping]
  ∧ ∃ rs, length rs = 2
        ∧ get_history 1 (world (exec_calls stub_prompt
                                  [CallRun (Some ping); CallRun (Some ping)] pong_agent))
          = get_history 1 (world pong_agent) ++ concat (zip_with turn [ping; ping] rs).
Proof.
  assert (always_answers (client (self pong_agent))) as Hclient
    by (intros cs req; by eexists _, _).
  assert (Forall (λ u, __bool__ u = true) [ping; ping]) as Hus
    by (by repeat constructor).
  split; [exact Hclient|]. split; [exact Hus|].
  destruct (turns_build_alternating_history stub_prompt [ping; ping] pong_agent
              Hclient Hus) as (rs & Hlen & _ & Hhist).
  exists rs. split; [exact Hlen | exact Hhist].
Defined.

Lemma history_only_grows_without_reset_witness :
  Forall (λ c, is_reset c = false) chat_calls
  ∧ get_history 1 (world seeded_agent)
      `prefix_of` get_history 1 (world (exec_calls stub_prompt chat_calls seeded_agent)).
Proof.
  assert (Forall (λ c, is_reset c = false) chat_calls) as Hcalls
    by (by repeat constructor).
  split; [exact Hcalls|].
  exact (proj2 (history_only_grows_without_reset stub_prompt chat_calls seeded_agent Hcalls)).
Defined.

Lemma system_prompt_stable_without_registry_calls_witness :
  Forall (λ c, negb (changes_registry c) = true) chat_calls
  ∧ system_prompt_generator (self (exec_calls stub_prompt chat_calls with_weather))
    = system_prompt_generator (self with_weather).
Proof.
  assert (Forall (λ c, negb (changes_registry c) = true) chat_calls) as Hcalls
    by (by repeat constructor).
  split; [exact Hcalls|].
  exact (proj1 (system_prompt_stable_without_registry_calls stub_prompt chat_calls
                  with_weather Hcalls)).
Defined.

Lemma requests_ask_for_resolved_output_schema_witness :
  Forall (λ c, negb (overrides_schema c) = true) chat_calls
  ∧ Forall (λ req, req_response_model req = CustomSchema "Verdict")
      (requests (events_since 0 (exec_calls stub_prompt chat_calls failing_agent))).
Proof.
  assert (Forall (λ c, negb (overrides_schema c) = true) chat_calls) as Hcalls
    by (by repeat constructor).
  split; [exact Hcalls|].
  exact (proj2 (proj2 (requests_ask_for_resolved_output_schema stub_prompt
                         failing_config empty_world chat_calls Hcalls))).
Defined.


Lemma construction_without_memory_starts_empty_witness :
  config_memory pong_config = None
  ∧ get_history (memory (self pong_agent)) (world pong_agent) = []
  ∧ memory (self pong_agent) ≠ initial_memory (self pong_agent).
Proof.
  split; [reflexivity|].
  destruct (construction_without_memory_starts_empty pong_config empty_world eq_refl)
    as (Hmem & _ & Hne & _).
  split; [exact Hmem | exact Hne].
Defined.

Lemma reset_memory_detaches_old_memory_witness :
  is_Some (heap (world seeded_agent) !! 1%positive)
  ∧ heap (world (run stub_prompt (Some ping) (reset_memory seeded_agent).2).2) !! 1%positive
    = heap (world seeded_agent) !! 1%positive.
Proof.
  assert (is_Some (heap (world seeded_agent) !! 1%positive)) as Hlive
    by (by eexists).
  split; [exact Hlive|].
  exact (proj2 (proj2 (reset_memory_detaches_old_memory stub_prompt 1%positive
                         (Some ping) seeded_agent Hlive))).
Defined.

Lemma request_after_reset_sends_baseline_witness :
  config_live seeded_config seeded_world
  ∧ Forall (call_avoids (initial_memory (self seeded_agent))) demo_calls
  ∧ ∃ req,
      requests (events_since
                  (length (trace (world (reset_memory
                     (exec_calls stub_prompt demo_calls seeded_agent)).2)))
                  (get_response stub_prompt None
                     (reset_memory (exec_calls stub_prompt demo_calls seeded_agent)).2).2)
        = [req]
      ∧ req_messages req
        = [mkMessage "system" (stub_prompt SystemPromptGenerator_new);
           mkMessage "assistant" "Hello!"].
Proof.
  assert (config_live seeded_config seeded_world) as Hlive
    by (vm_compute; by eexists).
  assert (Forall (call_avoids (initial_memory (self seeded_agent))) demo_calls) as Hcalls
    by (repeat constructor; by vm_compute).
  split; [exact Hlive|]. split; [exact Hcalls|].
  exact (request_after_reset_sends_baseline stub_prompt seeded_config seeded_world
           demo_calls None Hlive Hcalls).
Defined.

Lemma register_unregister_round_trip_witness :
  providers (self seeded_agent) !! "weather" = None
  ∧ unregister_context_provider "weather" with_weather = (inr (), seeded_agent).
Proof.
  split; [reflexivity|].
  exact (register_unregister_round_trip "weather" "sunny" seeded_agent eq_refl).
Defined.

Lemma unregister_removes_for_good_witness :
  providers (self with_weather) !! "weather" = Some "sunny"
  ∧ (get_context_provider "weather" (unregister_context_provider "weather" with_weather).2).1
    = inl (KeyError "Context provider 'weather' not found.").
Proof.
  split; [reflexivity|].
  destruct (unregister_removes_for_good "weather" "sunny" with_weather eq_refl)
    as (_ & Hget & _).
  rewrite Hget. reflexivity.
Defined.

Lemma registry_operations_are_local_witness :
  "weather" ≠ "news"
  ∧ (get_context_provider "weather" (register_context_provider "news" "none" with_weather).2).1
    = (get_context_provider "weather" with_weather).1.
Proof.
  assert ("weather" ≠ "news") as Hne by discriminate.
  split; [exact Hne|].
  exact (proj1 (registry_operations_are_local "weather" "news" "none" with_weather Hne)).
Defined.
